(** * plane: permission matching, the permission guard and route paths

  A shallow embedding of [plane/utils.py] and [plane/routes/paths.py].
  Python [str] values are modelled as [string], [list[str]] as
  [list string], [int] as [Z].  The guard is an effectful coroutine: it is
  modelled in a small state-and-exception monad over the interpreter's
  heap. *)

From Equations Require Import Equations.
From Stdlib Require Import List Arith Lia ZArith Bool.
From Stdlib Require Import Strings.String Strings.Ascii.
From Stdlib Require Import Numbers.DecimalString Numbers.DecimalPos.
From Stdlib Require Import Numbers.DecimalZ.
Import ListNotations.

Open Scope string_scope.

(** ** Python built-ins used by the sources *)

Module Py.

(** [s.split(sep)] for a one-character separator: the text between
    consecutive separators, so the result always has one element more
    than the number of separators in [s]; the empty string splits to the
    one-element list holding the empty string. *)
Fixpoint split (sep : ascii) (s : string) : list string :=
  match s with
  | EmptyString => [EmptyString]
  | String c rest =>
      if Ascii.eqb c sep then EmptyString :: split sep rest
      else match split sep rest with
           | seg :: segs => String c seg :: segs
           | [] => [String c EmptyString]
           end
  end.

(** [sep.join(parts)]. *)
Fixpoint join (sep : string) (parts : list string) : string :=
  match parts with
  | [] => EmptyString
  | [p] => p
  | p :: ps => p ++ sep ++ join sep ps
  end.

(** [x in xs] on a list of strings: equality with some element. *)
Fixpoint contains (xs : list string) (x : string) : bool :=
  match xs with
  | [] => false
  | y :: ys => if String.eqb x y then true else contains ys x
  end.

(** [xs.pop()] on a non-empty list, as far as the list is concerned:
    the last element is removed. *)
Definition pop (xs : list string) : list string := removelast xs.

(** [str(n)], which is also what an f-string field [{n}] renders for an
    [int]: decimal digits, no leading zero, [-] in front of a negative. *)
Definition str_of_int (n : Z) : string :=
  NilZero.string_of_int (Z.to_int n).

End Py.

(** ** [plane/utils.py]: [has_permissions] *)

Module Utils.

Definition dot : ascii := "."%char.

(** The [while required_list:] loop of [has_permissions]. *)
Equations? has_permissions_loop (required_list permissions : list string)
  : bool by wf (List.length required_list) lt :=
  has_permissions_loop [] _ := false;
  has_permissions_loop (seg :: segs) permissions :=
    if Py.contains permissions (Py.join "." (seg :: segs)) then true
    else has_permissions_loop (Py.pop (seg :: segs)) permissions.
Proof.
  clear has_permissions_loop.
  revert seg; induction segs as [|s segs IH]; intros seg; simpl in *.
  - lia.
  - specialize (IH s). destruct segs; simpl in *; lia.
Qed.

Definition has_permissions (required : string) (permissions : list string)
  : bool :=
  let required_list := Py.split dot required in
  has_permissions_loop required_list permissions.

(** ** [plane/utils.py]: [with_permission_check]

    The wrapper is a coroutine.  Awaiting it runs its body against the
    interpreter's heap and either returns a value or raises. *)

Inductive exception (Other : Type) : Type :=
| AssertionError (message : string)
| AccessException (required : string)
| TypeError
| OtherException (e : Other).

Arguments AssertionError {Other} message.
Arguments AccessException {Other} required.
Arguments TypeError {Other}.
Arguments OtherException {Other} e.

Inductive outcome (Other A : Type) : Type :=
| Returned (value : A)
| Raised (e : exception Other).

Arguments Returned {Other A} value.
Arguments Raised {Other A} e.

(** An awaited coroutine: a heap transformer with an outcome. *)
Definition Coro (World Other A : Type) : Type :=
  World -> outcome Other A * World.

Definition ret {World Other A} (a : A) : Coro World Other A :=
  fun w => (Returned a, w).

Definition raise {World Other A} (e : exception Other) : Coro World Other A :=
  fun w => (Raised e, w).

Definition bind {World Other A B} (c : Coro World Other A)
  (k : A -> Coro World Other B) : Coro World Other B :=
  fun w =>
    match c w with
    | (Returned a, w') => k a w'
    | (Raised e, w') => (Raised e, w')
    end.

(** Reading an attribute leaves the heap as it is. *)
Definition read {World Other A} (get : World -> A) : Coro World Other A :=
  fun w => (Returned (get w), w).

Notation "x <- c ;; k" := (bind c (fun x => k))
  (at level 61, c at next level, right associativity).

(** The double quote character of the assertion's message. *)
Definition dquote : string := String (ascii_of_nat 34) EmptyString.

Definition permissions_unset_message : string :=
  "Permissions is " ++ dquote ++ "None" ++ dquote
  ++ "; were permissions not yet fetched or unexpectedly modified?".

Section Guard.

(** [HTTPAwareEndpoint] and the client behind its [_http] attribute are
    declared outside these sources: the endpoint type, the heap and the read
    of [self._http.permissions] (an [Optional[list[str]]]) are taken as
    parameters, as are the values passed around and the exceptions an
    endpoint method may raise. *)
Context {World Endpoint Value Other : Type}.
Variable http_permissions : Endpoint -> World -> option (list string).

(** [_EndpointF]: a method [function(self, *args, **kwargs)]. *)
Definition EndpointF : Type :=
  Endpoint -> list Value -> list (string * Value) -> Coro World Other Value.

(** [with_permission_check(required)] is the decorator, and the decorator
    applied to [function] is [wrapper].  [self._http.permissions] is read
    once for the [is None] test and once more as the argument of
    [has_permissions]; on [None] the membership test of [has_permissions]
    would raise a [TypeError]. *)
Definition with_permission_check (required : string)
  : EndpointF -> EndpointF :=
  fun function self args kwargs =>
    p <- read (http_permissions self) ;;
    match p with
    | None => raise (AssertionError permissions_unset_message)
    | Some _ =>
        p' <- read (http_permissions self) ;;
        match p' with
        | None => raise TypeError
        | Some permissions =>
            if negb (has_permissions required permissions)
            then raise (AccessException required)
            else function self args kwargs
        end
    end.

End Guard.

Arguments EndpointF : clear implicits.

(** *** A recording stub

    To observe whether, how often and with which arguments the wrapped
    method is called, the heap is paired with a log of calls and the method
    is replaced by one that appends its own call to the log. *)

Definition call (Endpoint Value : Type) : Type :=
  (Endpoint * list Value * list (string * Value))%type.

Definition recording {World Endpoint Value Other : Type}
  (function : EndpointF World Endpoint Value Other)
  : EndpointF (World * list (call Endpoint Value)) Endpoint Value Other :=
  fun self args kwargs wl =>
    let '(r, w') := function self args kwargs (fst wl) in
    (r, (w', (snd wl ++ [(self, args, kwargs)])%list)).

(** The read of [self._http.permissions] on the instrumented heap. *)
Definition logged_permissions {World Endpoint Value : Type}
  (http_permissions : Endpoint -> World -> option (list string))
  : Endpoint -> World * list (call Endpoint Value) -> option (list string) :=
  fun self wl => http_permissions self (fst wl).

End Utils.

(** ** [plane/routes/paths.py] *)

Module Routes.

(** [class Avatars]; [BASE_URL] comes from [plane/const.py], which is not
    part of these sources, and is taken as a parameter. *)
Module Avatars.
Record t : Type := __init__ { }.
Definition route (BASE_URL : string) (self : t) : string := BASE_URL.
End Avatars.

(** [class Guilds] *)
Module Guilds.
Record t : Type := mk { _guild_id : Z; _route : string }.
Definition __init__ (guild_id : Z) : t :=
  let self_guild_id := guild_id in
  {| _guild_id := self_guild_id;
     _route := "/guilds/" ++ Py.str_of_int self_guild_id |}.
Definition route (self : t) : string := _route self.
Definition guild_id (self : t) : Z := _guild_id self.
End Guilds.

(** [class Tokens] *)
Module Tokens.
Record t : Type := __init__ { }.
Definition route (self : t) : string := "/tokens/@current".
End Tokens.

(** [class URLs] *)
Module URLs.
Record t : Type := mk { _url : string; _route : string }.
Definition __init__ (url : string) : t :=
  let self_url := url in
  {| _url := self_url; _route := "/urls/" ++ self_url |}.
Definition route (self : t) : string := _route self.
Definition url (self : t) : string := _url self.
End URLs.

(** [class Users] *)
Module Users.
Record t : Type := mk { _user_id : Z; _route : string }.
Definition __init__ (user_id : Z) : t :=
  let self_user_id := user_id in
  {| _user_id := self_user_id;
     _route := "/users/" ++ Py.str_of_int self_user_id |}.
Definition route (self : t) : string := _route self.
Definition user_id (self : t) : Z := _user_id self.
Definition pronouns (self : t) : string := _route self ++ "/pronouns".
Definition bans (self : t) : string := _route self ++ "/bans".
Definition whitelists (self : t) : string := _route self ++ "/whitelists".
Definition reputation (self : t) : string := _route self ++ "/rep".
End Users.

(** [class Paths] *)
Module Paths.
Definition avatars : Avatars.t := Avatars.__init__.
Definition guilds (guild_id : Z) : Guilds.t := Guilds.__init__ guild_id.
Definition tokens : Tokens.t := Tokens.__init__.
Definition urls (url : string) : URLs.t := URLs.__init__ url.
Definition users (user_id : Z) : Users.t := Users.__init__ user_id.
End Paths.

End Routes.

(** ** A small endpoint to run the guard on

    The heap holds the permissions only; the wrapped method returns the
    number of its positional arguments and forgets the permissions. *)

Definition sample_permissions (self : unit) (w : option (list string))
  : option (list string) := w.

Definition sample_method
  : Utils.EndpointF (option (list string)) unit nat Empty_set :=
  fun self args kwargs w => (Utils.Returned (List.length args), None).

(** * Properties *)

(** ** Python built-ins *)

Section PyFacts.

Lemma contains_In (xs : list string) (x : string) :
  Py.contains xs x = true <-> In x xs.
Proof.
  induction xs as [|y ys IH]; simpl.
  - split; [discriminate | tauto].
  - destruct (String.eqb_spec x y) as [->|Hne].
    + split; auto.
    + rewrite IH. split; [tauto | intros [Heq|Hin]; [congruence | exact Hin]].
Qed.

Lemma contains_false (xs : list string) (x : string) :
  Py.contains xs x = false <-> ~ In x xs.
Proof.
  rewrite <- contains_In. destruct (Py.contains xs x); split; congruence.
Qed.

Lemma split_not_nil (sep : ascii) (s : string) : Py.split sep s <> [].
Proof.
  destruct s as [|c rest]; simpl; [discriminate|].
  destruct (Ascii.eqb c sep); [discriminate|].
  destruct (Py.split sep rest); discriminate.
Qed.

Lemma join_cons (sep p : string) (ps : list string) :
  ps <> [] -> Py.join sep (p :: ps) = p ++ sep ++ Py.join sep ps.
Proof. destruct ps; [congruence | reflexivity]. Qed.

(** Joining the pieces of a split with the separator gives the string
    back. *)
Lemma join_split (sep : ascii) (s : string) :
  Py.join (String sep EmptyString) (Py.split sep s) = s.
Proof.
  induction s as [|c rest IH]; [reflexivity|].
  cbn [Py.split]. destruct (Ascii.eqb_spec c sep) as [->|Hne].
  - rewrite join_cons by apply split_not_nil. simpl. now rewrite IH.
  - pose proof (split_not_nil sep rest) as Hnil.
    destruct (Py.split sep rest) as [|seg segs]; [congruence|].
    destruct segs as [|seg' segs].
    + simpl in *. now rewrite IH.
    + rewrite join_cons by discriminate.
      rewrite join_cons in IH by discriminate.
      rewrite <- IH. reflexivity.
Qed.

(** A join whose first part is non-empty is non-empty. *)
Lemma join_head_nonempty (sep p : string) (ps : list string) :
  p <> EmptyString -> Py.join sep (p :: ps) <> EmptyString.
Proof.
  intros Hp. destruct p as [|c p]; [congruence|].
  destruct ps; simpl; discriminate.
Qed.

(** [str] tells integers apart. *)
Lemma str_of_int_inj (m n : Z) :
  Py.str_of_int m = Py.str_of_int n -> m = n.
Proof.
  unfold Py.str_of_int. intros Heq.
  apply DecimalZ.to_int_inj.
  assert (Hparse : forall z,
             NilZero.int_of_string (NilZero.string_of_int (Z.to_int z))
             = Some (Z.to_int z)).
  { intros z. apply NilZero.isi; destruct z; simpl; try discriminate;
      intros [= Hnil]; now apply DecimalPos.Unsigned.to_uint_nonnil in Hnil. }
  pose proof (Hparse m) as Hm. rewrite Heq, Hparse in Hm. congruence.
Qed.

End PyFacts.

(** ** The truncation loop *)

Section Loop.

Import Utils.

Lemma loop_nil (permissions : list string) :
  has_permissions_loop [] permissions = false.
Proof. now simp has_permissions_loop. Qed.

(** One turn of the loop on a non-empty list: test the join of the whole
    list, then go on without the last segment. *)
Lemma loop_snoc (segs : list string) (seg : string)
  (permissions : list string) :
  has_permissions_loop (segs ++ [seg]) permissions =
  if Py.contains permissions (Py.join "." (segs ++ [seg])) then true
  else has_permissions_loop segs permissions.
Proof.
  destruct segs as [|s segs]; cbn [app].
  - now simp has_permissions_loop.
  - rewrite (has_permissions_loop_equation_2 s (segs ++ [seg])).
    unfold Py.pop. rewrite app_comm_cons, removelast_last. reflexivity.
Qed.

(** The loop succeeds exactly when a non-empty prefix of the segment list,
    joined with dots, is granted. *)
Lemma loop_true_iff (segs permissions : list string) :
  has_permissions_loop segs permissions = true <->
  exists prefix rest,
    prefix <> [] /\ segs = (prefix ++ rest)%list /\
    In (Py.join "." prefix) permissions.
Proof.
  induction segs as [|seg segs IH] using rev_ind.
  - rewrite loop_nil. split; [discriminate|].
    intros (p & k & Hp & Heq & _). symmetry in Heq.
    apply app_eq_nil in Heq. tauto.
  - rewrite loop_snoc.
    destruct (Py.contains permissions (Py.join "." (segs ++ [seg])%list))
      eqn:Hc.
    + split; [intros _ | reflexivity].
      exists (segs ++ [seg])%list, []. rewrite app_nil_r.
      repeat split; [now destruct segs | now apply contains_In].
    + rewrite IH. split.
      * intros (p & k & Hp & -> & Hin).
        exists p, (k ++ [seg])%list. now rewrite app_assoc.
      * intros (p & k & Hp & Heq & Hin).
        destruct k as [|y k _] using rev_ind.
        -- rewrite app_nil_r in Heq. subst p.
           apply contains_In in Hin. congruence.
        -- rewrite app_assoc in Heq. apply app_inj_tail in Heq as [-> _].
           now exists p, k.
Qed.

End Loop.

(** ** [has_permissions] *)

Section HasPermissions.

Import Utils.

(** C1: [has_permissions required permissions] is true exactly when some
    non-empty prefix of the dot-segments of [required], joined with dots, is
    an element of [permissions].  The loop starts from the whole segment
    list, whose join is [required] itself, tests the join of the current
    list and otherwise goes on without its last segment, and answers false
    on the empty list. *)
Theorem has_permissions_prefix_spec
  (required : string) (permissions : list string) :
  (has_permissions required permissions = true <->
   exists prefix rest,
     prefix <> [] /\ Py.split dot required = (prefix ++ rest)%list /\
     In (Py.join "." prefix) permissions)
  /\ has_permissions required permissions =
     has_permissions_loop (Py.split dot required) permissions
  /\ Py.join "." (Py.split dot required) = required
  /\ (forall segs seg,
        has_permissions_loop (segs ++ [seg]) permissions =
        if Py.contains permissions (Py.join "." (segs ++ [seg])) then true
        else has_permissions_loop segs permissions)
  /\ has_permissions_loop [] permissions = false.
Proof.
  split; [apply loop_true_iff|].
  split; [reflexivity|].
  split; [apply (join_split dot)|].
  split; [intros; apply loop_snoc | apply loop_nil].
Qed.

(** C5: granting more never revokes a match. *)
Theorem has_permissions_monotone
  (required : string) (granted granted' : list string) :
  (forall p, In p granted -> In p granted') ->
  has_permissions required granted = true ->
  has_permissions required granted' = true.
Proof.
  intros Hsub. unfold has_permissions. rewrite !loop_true_iff.
  intros (prefix & rest & Hne & Heq & Hin).
  exists prefix, rest. auto.
Qed.

Lemma has_permissions_monotone_witness :
  has_permissions "guilds.bans.read" ["tokens"; "guilds"] = true.
Proof.
  apply (has_permissions_monotone "guilds.bans.read" ["guilds"]).
  - simpl. tauto.
  - reflexivity.
Defined.

(** C6: a required string that is itself granted matches, on the first
    turn of the loop. *)
Theorem has_permissions_verbatim
  (required : string) (permissions : list string) :
  In required permissions ->
  has_permissions required permissions = true
  /\ Py.contains permissions (Py.join "." (Py.split dot required)) = true.
Proof.
  intros Hin.
  assert (Hfirst : Py.contains permissions
                     (Py.join "." (Py.split dot required)) = true).
  { rewrite (join_split dot). now apply contains_In. }
  split; [|exact Hfirst].
  unfold has_permissions.
  pose proof (split_not_nil dot required) as Hnil.
  destruct (Py.split dot required) as [|seg segs]; [congruence|].
  rewrite has_permissions_loop_equation_2, Hfirst. reflexivity.
Qed.

Lemma has_permissions_verbatim_witness :
  has_permissions "guilds.bans" ["tokens"; "guilds.bans"] = true
  /\ Py.contains ["tokens"; "guilds.bans"]
       (Py.join "." (Py.split dot "guilds.bans")) = true.
Proof.
  apply (has_permissions_verbatim "guilds.bans" ["tokens"; "guilds.bans"]).
  simpl. tauto.
Defined.

(** C7: the empty string is one empty segment; it matches a grant of the
    empty string and does not match an empty grant list. *)
Theorem has_permissions_empty_string :
  Py.split dot EmptyString = [EmptyString]
  /\ has_permissions EmptyString [EmptyString] = true
  /\ has_permissions EmptyString [] = false.
Proof. repeat split. Qed.

(** C10: a grant of the empty string alone is no wildcard.  When the first
    dot-segment of [required] is not empty, no non-empty prefix of its
    segments joins to the empty string, and the match fails. *)
Theorem has_permissions_empty_grant (required : string) :
  hd EmptyString (Py.split dot required) <> EmptyString ->
  has_permissions required [EmptyString] = false
  /\ (forall prefix rest,
        prefix <> [] -> Py.split dot required = (prefix ++ rest)%list ->
        Py.join "." prefix <> EmptyString).
Proof.
  intros Hhd.
  assert (Hjoin : forall prefix rest,
             prefix <> [] -> Py.split dot required = (prefix ++ rest)%list ->
             Py.join "." prefix <> EmptyString).
  { intros [|p ps] rest Hne Heq; [congruence|].
    rewrite Heq in Hhd. simpl in Hhd.
    now apply join_head_nonempty. }
  split; [|exact Hjoin].
  destruct (has_permissions required [EmptyString]) eqn:Hp; [|reflexivity].
  unfold has_permissions in Hp. apply loop_true_iff in Hp.
  destruct Hp as (prefix & rest & Hne & Heq & [Hin|[]]).
  exfalso. apply (Hjoin prefix rest Hne Heq). now symmetry.
Qed.

Lemma has_permissions_empty_grant_witness :
  has_permissions "guilds.bans.read" [EmptyString] = false
  /\ (forall prefix rest,
        prefix <> [] ->
        Py.split dot "guilds.bans.read" = (prefix ++ rest)%list ->
        Py.join "." prefix <> EmptyString).
Proof.
  apply (has_permissions_empty_grant "guilds.bans.read").
  simpl. discriminate.
Defined.

End HasPermissions.

(** ** The guard *)

Section GuardRun.

Import Utils.

Context {World Endpoint Value Other : Type}.

(** What awaiting the wrapper amounts to, by cases on the permissions
    found on the heap. *)
Lemma with_permission_check_run
  (http_permissions : Endpoint -> World -> option (list string))
  (required : string) (function : EndpointF World Endpoint Value Other)
  (self : Endpoint) (args : list Value) (kwargs : list (string * Value))
  (w : World) :
  with_permission_check http_permissions required function self args kwargs w
  = match http_permissions self w with
    | None => (Raised (AssertionError permissions_unset_message), w)
    | Some permissions =>
        if has_permissions required permissions
        then function self args kwargs w
        else (Raised (AccessException required), w)
    end.
Proof.
  unfold with_permission_check, bind, read, raise.
  destruct (http_permissions self w) as [permissions|] eqn:Hread;
    cbn beta iota; [|reflexivity].
  rewrite Hread.
  destruct (has_permissions required permissions); reflexivity.
Qed.

End GuardRun.

Section GuardFacts.

Import Utils.

Context {World Endpoint Value Other : Type}.
Variable http_permissions : Endpoint -> World -> option (list string).
Variable function : EndpointF World Endpoint Value Other.

(** C2: while [self._http.permissions] is [None], a guarded call raises
    the [AssertionError], which is not an [AccessException], and leaves the
    heap as it was; the log of a recording stub gains no call. *)
Theorem guard_unset_raises_assertion
  (required : string) (self : Endpoint) (args : list Value)
  (kwargs : list (string * Value)) (w : World) :
  http_permissions self w = None ->
  with_permission_check http_permissions required function
    self args kwargs w =
    (Raised (AssertionError permissions_unset_message), w)
  /\ (forall r,
        fst (with_permission_check http_permissions required function
               self args kwargs w) <> Raised (AccessException r))
  /\ (forall log,
        with_permission_check (logged_permissions http_permissions) required
          (recording function) self args kwargs (w, log) =
          (Raised (AssertionError permissions_unset_message), (w, log))).
Proof.
  intros Hnone. rewrite !with_permission_check_run, Hnone.
  split; [reflexivity|]. split; [discriminate|].
  intros log. rewrite with_permission_check_run.
  unfold logged_permissions. cbn [fst]. now rewrite Hnone.
Qed.

(** C3: when the permissions are a list that does not satisfy [required],
    a guarded call raises [AccessException(required)] and leaves the heap
    as it was; the log of a recording stub gains no call. *)
Theorem guard_denied_raises_access
  (required : string) (self : Endpoint) (args : list Value)
  (kwargs : list (string * Value)) (w : World) (granted : list string) :
  http_permissions self w = Some granted ->
  has_permissions required granted = false ->
  with_permission_check http_permissions required function
    self args kwargs w =
    (Raised (AccessException required), w)
  /\ (forall log,
        with_permission_check (logged_permissions http_permissions) required
          (recording function) self args kwargs (w, log) =
          (Raised (AccessException required), (w, log))).
Proof.
  intros Hsome Hdenied. rewrite with_permission_check_run, Hsome, Hdenied.
  split; [reflexivity|].
  intros log. rewrite with_permission_check_run.
  unfold logged_permissions. cbn [fst]. now rewrite Hsome, Hdenied.
Qed.

(** C4: when the permissions satisfy [required], a guarded call is the
    call of the wrapped method on the same arguments and the same heap:
    same outcome, returned or raised, and same final heap.  A recording
    stub logs one call, with [self], [args] and [kwargs] as given. *)
Theorem guard_granted_forwards
  (required : string) (self : Endpoint) (args : list Value)
  (kwargs : list (string * Value)) (w : World) (granted : list string) :
  http_permissions self w = Some granted ->
  has_permissions required granted = true ->
  with_permission_check http_permissions required function
    self args kwargs w =
    function self args kwargs w
  /\ (forall log,
        with_permission_check (logged_permissions http_permissions) required
          (recording function) self args kwargs (w, log) =
          (fst (function self args kwargs w),
           (snd (function self args kwargs w),
            (log ++ [(self, args, kwargs)])%list))).
Proof.
  intros Hsome Hgranted. rewrite with_permission_check_run, Hsome, Hgranted.
  split; [reflexivity|].
  intros log. rewrite with_permission_check_run.
  unfold logged_permissions, recording. cbn [fst snd].
  rewrite Hsome, Hgranted.
  now destruct (function self args kwargs w).
Qed.

End GuardFacts.

(** *** The guard on a small endpoint *)

Lemma guard_unset_raises_assertion_witness :
  Utils.with_permission_check sample_permissions "x" sample_method
    tt [1; 2] [] None =
    (Utils.Raised (Utils.AssertionError Utils.permissions_unset_message), None)
  /\ (forall r,
        fst (Utils.with_permission_check sample_permissions "x" sample_method
               tt [1; 2] [] None) <> Utils.Raised (Utils.AccessException r))
  /\ (forall log,
        Utils.with_permission_check
          (Utils.logged_permissions sample_permissions) "x"
          (Utils.recording sample_method) tt [1; 2] [] (None, log) =
          (Utils.Raised (Utils.AssertionError Utils.permissions_unset_message),
           (None, log))).
Proof.
  apply (guard_unset_raises_assertion sample_permissions sample_method
           "x" tt [1; 2] [] None).
  reflexivity.
Defined.

Lemma guard_denied_raises_access_witness :
  Utils.with_permission_check sample_permissions "x" sample_method
    tt [1; 2] [] (Some []) =
    (Utils.Raised (Utils.AccessException "x"), Some [])
  /\ (forall log,
        Utils.with_permission_check
          (Utils.logged_permissions sample_permissions) "x"
          (Utils.recording sample_method) tt [1; 2] [] (Some [], log) =
          (Utils.Raised (Utils.AccessException "x"), (Some [], log))).
Proof.
  apply (guard_denied_raises_access sample_permissions sample_method
           "x" tt [1; 2] [] (Some []) []); reflexivity.
Defined.

Lemma guard_granted_forwards_witness :
  Utils.with_permission_check sample_permissions "x.y" sample_method
    tt [1; 2] [] (Some ["x"]) =
    sample_method tt [1; 2] [] (Some ["x"])
  /\ (forall log,
        Utils.with_permission_check
          (Utils.logged_permissions sample_permissions) "x.y"
          (Utils.recording sample_method) tt [1; 2] [] (Some ["x"], log) =
          (fst (sample_method tt [1; 2] [] (Some ["x"])),
           (snd (sample_method tt [1; 2] [] (Some ["x"])),
            (log ++ [(tt, [1; 2], [])])%list))).
Proof.
  apply (guard_granted_forwards sample_permissions sample_method
           "x.y" tt [1; 2] [] (Some ["x"]) ["x"]); reflexivity.
Defined.

(** The examples of the guard on the sample endpoint, run. *)
Example guard_examples :
  Utils.with_permission_check
    (Utils.logged_permissions sample_permissions) "x"
    (Utils.recording sample_method) tt [1; 2] [] (None, []) =
    (Utils.Raised (Utils.AssertionError Utils.permissions_unset_message),
     (None, []))
  /\ Utils.with_permission_check
       (Utils.logged_permissions sample_permissions) "x"
       (Utils.recording sample_method) tt [1; 2] [] (Some [], []) =
     (Utils.Raised (Utils.AccessException "x"), (Some [], []))
  /\ Utils.with_permission_check
       (Utils.logged_permissions sample_permissions) "x.y"
       (Utils.recording sample_method) tt [1; 2] [] (Some ["x"], []) =
     (Utils.Returned 2, (None, [(tt, [1; 2], [])])).
Proof. repeat split. Qed.

(** ** Route paths *)

Section RouteFacts.

Import Routes.

Lemma append_inv_head (s a b : string) : s ++ a = s ++ b -> a = b.
Proof.
  induction s as [|c s IH]; simpl; [auto|].
  intros Heq. injection Heq as Heq. auto.
Qed.

(** C8: [Users(u)] has route ["/users/" ++ str(u)], gives [u] back as
    [user_id], and its four child paths are the route followed by
    [/pronouns], [/bans], [/whitelists] and [/rep]; the reputation path
    does not end in [/reputation]. *)
Theorem users_paths (u : Z) :
  Paths.users u = Users.__init__ u
  /\ Users.route (Users.__init__ u) = "/users/" ++ Py.str_of_int u
  /\ Users.user_id (Users.__init__ u) = u
  /\ Users.pronouns (Users.__init__ u) =
     Users.route (Users.__init__ u) ++ "/pronouns"
  /\ Users.bans (Users.__init__ u) =
     Users.route (Users.__init__ u) ++ "/bans"
  /\ Users.whitelists (Users.__init__ u) =
     Users.route (Users.__init__ u) ++ "/whitelists"
  /\ Users.reputation (Users.__init__ u) =
     Users.route (Users.__init__ u) ++ "/rep"
  /\ Users.reputation (Users.__init__ u) <>
     Users.route (Users.__init__ u) ++ "/reputation".
Proof.
  repeat split.
  intros Heq. apply append_inv_head in Heq. discriminate.
Qed.

Example users_42 :
  Users.route (Users.__init__ 42) = "/users/42"
  /\ Users.bans (Users.__init__ 42) = "/users/42/bans"
  /\ Users.reputation (Users.__init__ 42) = "/users/42/rep"
  /\ Users.route (Users.__init__ (-5)) = "/users/-5"
  /\ Users.route (Users.__init__ 0) = "/users/0".
Proof. repeat split. Qed.

(** C9: [Guilds(g)] has route ["/guilds/" ++ str(g)] and gives [g] back
    as [guild_id]; [URLs(s)] has route ["/urls/" ++ s], with [s] as it
    is, and gives [s] back as [url]; the route of [Tokens()] is
    [/tokens/@current]. *)
Theorem guilds_urls_tokens_paths (g : Z) (s : string) :
  (Paths.guilds g = Guilds.__init__ g
   /\ Guilds.route (Guilds.__init__ g) = "/guilds/" ++ Py.str_of_int g
   /\ Guilds.guild_id (Guilds.__init__ g) = g)
  /\ (Paths.urls s = URLs.__init__ s
      /\ URLs.route (URLs.__init__ s) = "/urls/" ++ s
      /\ URLs.url (URLs.__init__ s) = s)
  /\ Tokens.route Paths.tokens = "/tokens/@current".
Proof. repeat split. Qed.

Example guilds_urls_examples :
  Guilds.route (Guilds.__init__ 7) = "/guilds/7"
  /\ URLs.route (URLs.__init__ "example.com") = "/urls/example.com"
  /\ URLs.route (URLs.__init__ "a b/c?d=%") = "/urls/a b/c?d=%".
Proof. repeat split. Qed.

End RouteFacts.

(** * Further properties *)

(** ** Splitting and joining around a separator *)

Section SplitJoin.

Lemma string_length_append (a b : string) :
  String.length (a ++ b) = String.length a + String.length b.
Proof. induction a as [|c a IH]; simpl; [reflexivity | now rewrite IH]. Qed.

Lemma string_append_assoc (a b c : string) : (a ++ b) ++ c = a ++ b ++ c.
Proof. induction a as [|x a IH]; simpl; [reflexivity | now rewrite IH]. Qed.

(** Splitting [a ++ sep ++ b] gives the pieces of [a], then those of
    [b]. *)
Lemma split_app_sep (sep : ascii) (a b : string) :
  Py.split sep (a ++ String sep b) = (Py.split sep a ++ Py.split sep b)%list.
Proof.
  induction a as [|c a IH]; cbn [append Py.split].
  - now rewrite Ascii.eqb_refl.
  - destruct (Ascii.eqb c sep); rewrite IH; [reflexivity|].
    pose proof (split_not_nil sep a) as Hnil.
    destruct (Py.split sep a); [congruence | reflexivity].
Qed.

Lemma join_app (sep : string) (ps qs : list string) :
  ps <> [] -> qs <> [] ->
  Py.join sep (ps ++ qs) = Py.join sep ps ++ sep ++ Py.join sep qs.
Proof.
  intros Hps Hqs. induction ps as [|p ps IH]; [congruence|].
  destruct ps as [|p' ps].
  - cbn [app]. now rewrite join_cons.
  - rewrite <- app_comm_cons, join_cons by discriminate.
    rewrite IH by discriminate.
    rewrite (join_cons sep p) by discriminate.
    now rewrite !string_append_assoc.
Qed.

(** A string without the separator is one piece. *)
Lemma split_without_sep (sep : ascii) (s : string) :
  Forall (fun c => c <> sep) (list_ascii_of_string s) ->
  Py.split sep s = [s].
Proof.
  induction s as [|c s IH]; simpl; [reflexivity|].
  intros Hall. inversion Hall as [|? ? Hc Hrest]; subst.
  destruct (Ascii.eqb_spec c sep); [congruence|].
  now rewrite IH.
Qed.

End SplitJoin.

(** ** [has_permissions] in terms of strings *)

Section Ancestors.

Import Utils.

(** A granted string followed by a dot and anything is matched. *)
Lemma granted_ancestor_matches (p s : string) (permissions : list string) :
  In p permissions -> has_permissions (p ++ "." ++ s) permissions = true.
Proof.
  intros Hin. unfold has_permissions. apply loop_true_iff.
  exists (Py.split dot p), (Py.split dot s).
  split; [apply split_not_nil|]. split.
  - apply (split_app_sep dot).
  - now rewrite (join_split dot).
Qed.

Lemma granted_self_matches (required : string) (permissions : list string) :
  In required permissions -> has_permissions required permissions = true.
Proof.
  intros Hin. unfold has_permissions. apply loop_true_iff.
  exists (Py.split dot required), []. rewrite app_nil_r.
  split; [apply split_not_nil|]. split; [reflexivity|].
  now rewrite (join_split dot).
Qed.

(** A match comes from the required string itself or from a granted
    string that the required one extends by a dot and more. *)
Lemma match_has_ancestor (required : string) (permissions : list string) :
  has_permissions required permissions = true ->
  In required permissions \/
  exists p s, required = p ++ "." ++ s /\ In p permissions.
Proof.
  unfold has_permissions. rewrite loop_true_iff.
  intros (prefix & rest & Hne & Heq & Hin).
  destruct rest as [|r rest].
  - left. rewrite app_nil_r in Heq.
    now rewrite <- (join_split dot required), Heq.
  - right. exists (Py.join "." prefix), (Py.join "." (r :: rest)).
    split; [|exact Hin].
    rewrite <- join_app by (assumption || discriminate).
    now rewrite <- Heq, (join_split dot).
Qed.

(** X1: a requirement is satisfied exactly when it is granted itself or
    one of its ancestors is: a granted string [p] with
    [required = p ++ "." ++ s]. *)
Theorem has_permissions_ancestor_iff
  (required : string) (permissions : list string) :
  has_permissions required permissions = true <->
  In required permissions \/
  exists p s, required = p ++ "." ++ s /\ In p permissions.
Proof.
  split; [apply match_has_ancestor|].
  intros [Hin | (p & s & -> & Hin)].
  - now apply granted_self_matches.
  - now apply granted_ancestor_matches.
Qed.

(** X2: with nothing granted, nothing is permitted. *)
Theorem has_permissions_nothing_granted (required : string) :
  has_permissions required [] = false.
Proof.
  destruct (has_permissions required []) eqn:Hp; [|reflexivity].
  apply match_has_ancestor in Hp as [[] | (p & s & _ & [])].
Qed.

(** X3: what satisfies a requirement satisfies every requirement below
    it. *)
Theorem has_permissions_descendant
  (required s : string) (permissions : list string) :
  has_permissions required permissions = true ->
  has_permissions (required ++ "." ++ s) permissions = true.
Proof.
  unfold has_permissions. rewrite !loop_true_iff.
  intros (prefix & rest & Hne & Heq & Hin).
  exists prefix, (rest ++ Py.split dot s)%list.
  split; [exact Hne|]. split; [|exact Hin].
  cbn [append]. rewrite (split_app_sep dot), Heq. now rewrite app_assoc.
Qed.

Lemma has_permissions_descendant_witness :
  has_permissions ("guilds.bans" ++ "." ++ "read") ["guilds"] = true.
Proof.
  apply (has_permissions_descendant "guilds.bans" "read" ["guilds"]).
  reflexivity.
Defined.

(** X4: matching against two grant lists put together is matching against
    one or the other. *)
Theorem has_permissions_app (required : string) (g1 g2 : list string) :
  has_permissions required (g1 ++ g2) =
  has_permissions required g1 || has_permissions required g2.
Proof.
  apply eq_true_iff_eq. rewrite orb_true_iff.
  unfold has_permissions. rewrite !loop_true_iff. split.
  - intros (prefix & rest & Hne & Heq & Hin).
    apply in_app_iff in Hin as [Hin|Hin]; [left | right];
      now exists prefix, rest.
  - intros [(prefix & rest & Hne & Heq & Hin)
           |(prefix & rest & Hne & Heq & Hin)];
      exists prefix, rest; rewrite in_app_iff; auto.
Qed.

(** X5: only the elements of the grant list matter, not their order or
    their repetitions. *)
Theorem has_permissions_same_elements
  (required : string) (g1 g2 : list string) :
  (forall p, In p g1 <-> In p g2) ->
  has_permissions required g1 = has_permissions required g2.
Proof.
  intros Hsame. apply eq_true_iff_eq.
  unfold has_permissions. rewrite !loop_true_iff.
  split; intros (prefix & rest & Hne & Heq & Hin);
    exists prefix, rest; repeat split; auto; now apply Hsame.
Qed.

Lemma has_permissions_same_elements_witness :
  has_permissions "guilds.bans" ["tokens"; "guilds"; "tokens"] =
  has_permissions "guilds.bans" ["guilds"; "tokens"].
Proof.
  apply (has_permissions_same_elements "guilds.bans"
           ["tokens"; "guilds"; "tokens"] ["guilds"; "tokens"]).
  intros p. simpl. tauto.
Defined.

(** X6: grants are never shortened: when every granted string is longer
    than the required one, the match fails. *)
Theorem has_permissions_longer_grants
  (required : string) (permissions : list string) :
  (forall p, In p permissions -> String.length required < String.length p) ->
  has_permissions required permissions = false.
Proof.
  intros Hlonger.
  destruct (has_permissions required permissions) eqn:Hp; [|reflexivity].
  apply match_has_ancestor in Hp as [Hin | (p & s & Heq & Hin)];
    apply Hlonger in Hin.
  - lia.
  - rewrite Heq, !string_length_append in Hin. lia.
Qed.

Lemma has_permissions_longer_grants_witness :
  has_permissions "guilds" ["guilds.bans"; "guilds.bans.read"] = false.
Proof.
  apply (has_permissions_longer_grants "guilds"
           ["guilds.bans"; "guilds.bans.read"]).
  intros p [<-|[<-|[]]]; simpl; lia.
Defined.

(** X7: a single grant [p] permits [p] and the strings that start with
    [p] and a dot, and nothing else; sharing leading characters with [p]
    is not enough. *)
Theorem has_permissions_single_grant (required p : string) :
  has_permissions required [p] = true <->
  required = p \/ exists s, required = p ++ "." ++ s.
Proof.
  split.
  - intros Hp. apply match_has_ancestor in Hp
      as [[->|[]] | (q & s & -> & [->|[]])]; [now left|].
    right. now exists s.
  - intros [-> | (s & ->)].
    + apply granted_self_matches. now left.
    + apply granted_ancestor_matches. now left.
Qed.

End Ancestors.

(** ** More on the guard *)

Section GuardMore.

Import Utils.

Context {World Endpoint Value Other : Type}.
Variable http_permissions : Endpoint -> World -> option (list string).
Variable function : EndpointF World Endpoint Value Other.

(** X8: decorating twice with the same requirement behaves as decorating
    once. *)
Theorem guard_twice_same
  (required : string) (self : Endpoint) (args : list Value)
  (kwargs : list (string * Value)) (w : World) :
  with_permission_check http_permissions required
    (with_permission_check http_permissions required function)
    self args kwargs w =
  with_permission_check http_permissions required function
    self args kwargs w.
Proof.
  rewrite (with_permission_check_run http_permissions required
             (with_permission_check http_permissions required function)).
  destruct (http_permissions self w) as [granted|] eqn:Hread.
  - destruct (has_permissions required granted) eqn:Hp; [reflexivity|].
    now rewrite with_permission_check_run, Hread, Hp.
  - now rewrite with_permission_check_run, Hread.
Qed.

(** X9: two stacked decorators.  The outer requirement is tested first
    and is the one reported when both fail; the method runs only when both
    are satisfied; unset permissions raise the assertion whatever the
    requirements. *)
Theorem guard_stacked
  (outer inner : string) (self : Endpoint) (args : list Value)
  (kwargs : list (string * Value)) (w : World) :
  with_permission_check http_permissions outer
    (with_permission_check http_permissions inner function)
    self args kwargs w =
  match http_permissions self w with
  | None => (Raised (AssertionError permissions_unset_message), w)
  | Some granted =>
      if has_permissions outer granted
      then if has_permissions inner granted
           then function self args kwargs w
           else (Raised (AccessException inner), w)
      else (Raised (AccessException outer), w)
  end.
Proof.
  rewrite (with_permission_check_run http_permissions outer
             (with_permission_check http_permissions inner function)).
  destruct (http_permissions self w) as [granted|] eqn:Hread;
    [|reflexivity].
  destruct (has_permissions outer granted); [|reflexivity].
  now rewrite with_permission_check_run, Hread.
Qed.

(** X10: whatever the permissions on the heap, one guarded call makes at
    most one call of the wrapped method: the log of a recording stub gains
    the call when the permissions are a list that satisfies the
    requirement, and stays as it was otherwise. *)
Theorem guard_calls_at_most_once
  (required : string) (self : Endpoint) (args : list Value)
  (kwargs : list (string * Value)) (w : World)
  (log : list (call Endpoint Value)) :
  snd (snd (with_permission_check (logged_permissions http_permissions)
              required (recording function) self args kwargs (w, log))) =
  match http_permissions self w with
  | Some granted =>
      if has_permissions required granted
      then (log ++ [(self, args, kwargs)])%list
      else log
  | None => log
  end.
Proof.
  rewrite with_permission_check_run.
  unfold logged_permissions, recording. cbn [fst snd].
  destruct (http_permissions self w) as [granted|]; [|reflexivity].
  destruct (has_permissions required granted); [|reflexivity].
  now destruct (function self args kwargs w).
Qed.


(** X12: the permissions are read at every call, not kept from an earlier
    one.  When a permitted call returns on a heap where the permissions
    are unset, the guarded call that follows raises the assertion. *)
Theorem guard_reads_permissions_each_call
  (required required' : string) (self : Endpoint)
  (args args' : list Value) (kwargs kwargs' : list (string * Value))
  (w w' : World) (granted : list string) (v : Value) :
  http_permissions self w = Some granted ->
  has_permissions required granted = true ->
  function self args kwargs w = (Returned v, w') ->
  http_permissions self w' = None ->
  bind (with_permission_check http_permissions required function
          self args kwargs)
       (fun _ => with_permission_check http_permissions required' function
                   self args' kwargs') w =
  (Raised (AssertionError permissions_unset_message), w').
Proof.
  intros Hread Hp Hrun Hunset. unfold bind.
  rewrite with_permission_check_run, Hread, Hp, Hrun.
  now rewrite with_permission_check_run, Hunset.
Qed.

End GuardMore.

Lemma guard_reads_permissions_each_call_witness :
  Utils.bind
    (Utils.with_permission_check sample_permissions "x.y" sample_method
       tt [1; 2] [])
    (fun _ => Utils.with_permission_check sample_permissions "x"
                sample_method tt [3] []) (Some ["x"]) =
  (Utils.Raised (Utils.AssertionError Utils.permissions_unset_message), None).
Proof.
  apply (guard_reads_permissions_each_call sample_permissions sample_method
           "x.y" "x" tt [1; 2] [3] [] [] (Some ["x"]) None ["x"] 2);
    reflexivity.
Defined.

(** ** More on route paths *)

Section RouteMore.

Import Routes.

Lemma append_inv_tail (a b t : string) : a ++ t = b ++ t -> a = b.
Proof.
  revert b. induction a as [|c a IH]; intros [|d b] Heq; simpl in Heq.
  - reflexivity.
  - apply (f_equal String.length) in Heq. simpl in Heq.
    rewrite string_length_append in Heq. lia.
  - apply (f_equal String.length) in Heq. simpl in Heq.
    rewrite string_length_append in Heq. lia.
  - injection Heq as -> Heq. f_equal. now apply IH.
Qed.

Lemma uint_digits_no_slash (d : Decimal.uint) :
  Forall (fun c => c <> "/"%char)
    (list_ascii_of_string (NilEmpty.string_of_uint d)).
Proof.
  induction d; simpl; constructor; (discriminate || assumption).
Qed.

(** The decimal rendering of an integer has no slash in it. *)
Lemma str_of_int_no_slash (n : Z) :
  Forall (fun c => c <> "/"%char) (list_ascii_of_string (Py.str_of_int n)).
Proof.
  unfold Py.str_of_int, NilZero.string_of_int, NilZero.string_of_uint.
  destruct (Z.to_int n) as [d|d]; [|constructor; [discriminate|]];
    destruct d; try apply uint_digits_no_slash;
    simpl; repeat constructor; discriminate.
Qed.

Lemma split_slash_str_of_int (n : Z) (name : string) :
  Py.split "/" (Py.str_of_int n ++ String "/" name) =
  Py.str_of_int n :: Py.split "/" name.
Proof.
  rewrite split_app_sep, split_without_sep by apply str_of_int_no_slash.
  reflexivity.
Qed.

Lemma users_route_split (u : Z) :
  Py.split "/" (Users.route (Users.__init__ u)) =
  [EmptyString; "users"; Py.str_of_int u].
Proof.
  unfold Users.route, Users.__init__. cbn [Users._route].
  cbn [append Py.split Ascii.eqb Bool.eqb].
  now rewrite split_without_sep by apply str_of_int_no_slash.
Qed.

Lemma users_child_split (u : Z) (name : string) :
  Py.split "/" (Users.route (Users.__init__ u) ++ String "/" name) =
  (Py.split "/" (Users.route (Users.__init__ u)) ++ Py.split "/" name)%list.
Proof. apply split_app_sep. Qed.

(** X13: the slash-separated pieces of the paths of [Users(u)]: the route
    is [users] and the rendered id after the leading slash, and each child
    path has its fixed name as one more piece, whatever [u] is. *)
Theorem users_path_segments (u : Z) :
  Py.split "/" (Users.route (Users.__init__ u)) =
    [EmptyString; "users"; Py.str_of_int u]
  /\ Py.split "/" (Users.pronouns (Users.__init__ u)) =
    [EmptyString; "users"; Py.str_of_int u; "pronouns"]
  /\ Py.split "/" (Users.bans (Users.__init__ u)) =
    [EmptyString; "users"; Py.str_of_int u; "bans"]
  /\ Py.split "/" (Users.whitelists (Users.__init__ u)) =
    [EmptyString; "users"; Py.str_of_int u; "whitelists"]
  /\ Py.split "/" (Users.reputation (Users.__init__ u)) =
    [EmptyString; "users"; Py.str_of_int u; "rep"].
Proof.
  split; [apply users_route_split|].
  repeat split;
    [ change (Users.pronouns (Users.__init__ u))
        with (Users.route (Users.__init__ u) ++ String "/" "pronouns")
    | change (Users.bans (Users.__init__ u))
        with (Users.route (Users.__init__ u) ++ String "/" "bans")
    | change (Users.whitelists (Users.__init__ u))
        with (Users.route (Users.__init__ u) ++ String "/" "whitelists")
    | change (Users.reputation (Users.__init__ u))
        with (Users.route (Users.__init__ u) ++ String "/" "rep") ];
    now rewrite users_child_split, users_route_split.
Qed.

(** X14: the pieces of the route of [URLs(s)] are [urls] after the
    leading slash and then the pieces of [s] itself: a slash in [s] makes
    one more path segment, since nothing is escaped. *)
Theorem urls_route_segments (s : string) :
  Py.split "/" (URLs.route (URLs.__init__ s)) =
    EmptyString :: "urls" :: Py.split "/" s
  /\ List.length (Py.split "/" (URLs.route (URLs.__init__ s))) =
     2 + List.length (Py.split "/" s).
Proof.
  assert (Hsplit : Py.split "/" (URLs.route (URLs.__init__ s)) =
                   EmptyString :: "urls" :: Py.split "/" s).
  { unfold URLs.route, URLs.__init__. cbn [URLs._route].
    cbn [append Py.split Ascii.eqb Bool.eqb].
    pose proof (split_not_nil "/" s) as Hnil.
    destruct (Py.split "/" s); [congruence | reflexivity]. }
  split; [exact Hsplit | now rewrite Hsplit].
Qed.

(** X15: a path of [Users(u)] determines [u]: two users with the same
    route, or the same child path of one kind, are the same user. *)
Theorem users_paths_injective (u v : Z) :
  (Users.route (Users.__init__ u) = Users.route (Users.__init__ v)
   <-> u = v)
  /\ (Users.pronouns (Users.__init__ u) = Users.pronouns (Users.__init__ v)
      <-> u = v)
  /\ (Users.bans (Users.__init__ u) = Users.bans (Users.__init__ v)
      <-> u = v)
  /\ (Users.whitelists (Users.__init__ u) =
      Users.whitelists (Users.__init__ v) <-> u = v)
  /\ (Users.reputation (Users.__init__ u) =
      Users.reputation (Users.__init__ v) <-> u = v).
Proof.
  assert (Hroute : Users.route (Users.__init__ u) =
                   Users.route (Users.__init__ v) -> u = v).
  { unfold Users.route, Users.__init__. cbn [Users._route].
    intros Heq. apply append_inv_head in Heq. now apply str_of_int_inj. }
  repeat split; try (intros ->; reflexivity); try exact Hroute;
    intros Heq; apply append_inv_tail in Heq; exact (Hroute Heq).
Qed.

(** X16: the route of [Guilds(g)] determines [g], and the route of
    [URLs(s)] determines [s]. *)
Theorem guilds_urls_route_injective (g h : Z) (s t : string) :
  (Guilds.route (Guilds.__init__ g) = Guilds.route (Guilds.__init__ h)
   <-> g = h)
  /\ (URLs.route (URLs.__init__ s) = URLs.route (URLs.__init__ t)
      <-> s = t).
Proof.
  unfold Guilds.route, Guilds.__init__, URLs.route, URLs.__init__.
  cbn [Guilds._route URLs._route].
  repeat split; try (intros ->; reflexivity); intros Heq;
    apply append_inv_head in Heq; [now apply str_of_int_inj | exact Heq].
Qed.

(** X17: paths of different kinds never coincide, also between two
    users: no child path is the route of a user, and child paths with
    different names differ. *)
Theorem users_paths_kinds_differ (u v : Z) :
  Users.route (Users.__init__ u) <> Users.pronouns (Users.__init__ v)
  /\ Users.route (Users.__init__ u) <> Users.bans (Users.__init__ v)
  /\ Users.route (Users.__init__ u) <> Users.whitelists (Users.__init__ v)
  /\ Users.route (Users.__init__ u) <> Users.reputation (Users.__init__ v)
  /\ Users.pronouns (Users.__init__ u) <> Users.bans (Users.__init__ v)
  /\ Users.pronouns (Users.__init__ u) <>
     Users.whitelists (Users.__init__ v)
  /\ Users.pronouns (Users.__init__ u) <>
     Users.reputation (Users.__init__ v)
  /\ Users.bans (Users.__init__ u) <> Users.whitelists (Users.__init__ v)
  /\ Users.bans (Users.__init__ u) <> Users.reputation (Users.__init__ v)
  /\ Users.whitelists (Users.__init__ u) <>
     Users.reputation (Users.__init__ v).
Proof.
  unfold Users.pronouns, Users.bans, Users.whitelists, Users.reputation.
  change (Users._route (Users.__init__ u))
    with (Users.route (Users.__init__ u)).
  change (Users._route (Users.__init__ v))
    with (Users.route (Users.__init__ v)).
  repeat split; intros Heq; apply (f_equal (Py.split "/")) in Heq;
    change "/pronouns" with (String "/" "pronouns") in Heq;
    change "/bans" with (String "/" "bans") in Heq;
    change "/whitelists" with (String "/" "whitelists") in Heq;
    change "/rep" with (String "/" "rep") in Heq;
    rewrite ?users_child_split, ?users_route_split in Heq;
    discriminate.
Qed.

(** X18: the four families keep apart: no path of a user, route or
    child, is the route of a guild, of a URL or of the tokens, and these
    three differ from one another, whatever the ids and the URL. *)
Theorem route_families_disjoint (u g : Z) (s p : string) :
  In p [Users.route (Users.__init__ u); Users.pronouns (Users.__init__ u);
        Users.bans (Users.__init__ u); Users.whitelists (Users.__init__ u);
        Users.reputation (Users.__init__ u)] ->
  (p <> Guilds.route (Guilds.__init__ g)
   /\ p <> URLs.route (URLs.__init__ s)
   /\ p <> Tokens.route Paths.tokens)
  /\ Guilds.route (Guilds.__init__ g) <> URLs.route (URLs.__init__ s)
  /\ Guilds.route (Guilds.__init__ g) <> Tokens.route Paths.tokens
  /\ URLs.route (URLs.__init__ s) <> Tokens.route Paths.tokens.
Proof.
  unfold Users.pronouns, Users.bans, Users.whitelists, Users.reputation,
    Users.route, Users.__init__, Guilds.route, Guilds.__init__,
    URLs.route, URLs.__init__, Tokens.route.
  cbn [Users._route Guilds._route URLs._route].
  rewrite !string_append_assoc. cbn [append In].
  intros Hin. split; [|repeat split; discriminate].
  decompose [or] Hin; try contradiction; subst p;
    repeat split; discriminate.
Qed.

End RouteMore.

Lemma route_families_disjoint_witness :
  ("/users/42/bans" <>
     Routes.Guilds.route (Routes.Guilds.__init__ 42)
   /\ "/users/42/bans" <>
      Routes.URLs.route (Routes.URLs.__init__ "users/42/bans")
   /\ "/users/42/bans" <> Routes.Tokens.route Routes.Paths.tokens)
  /\ Routes.Guilds.route (Routes.Guilds.__init__ 42) <>
     Routes.URLs.route (Routes.URLs.__init__ "users/42/bans")
  /\ Routes.Guilds.route (Routes.Guilds.__init__ 42) <>
     Routes.Tokens.route Routes.Paths.tokens
  /\ Routes.URLs.route (Routes.URLs.__init__ "users/42/bans") <>
     Routes.Tokens.route Routes.Paths.tokens.
Proof.
  apply (route_families_disjoint 42 42 "users/42/bans" "/users/42/bans").
  simpl. tauto.
Defined.
